(** * Process Dashboard step-run helpers

    A shallow embedding of
    [src/mbu_process_dashboard_shared_components/process_step_run.py]:
    the step-run resolver, the update-payload builder and the step-run
    updater, with the HTTP client, the three identity resolvers, the clock
    and the logger as the events of a small free monad. *)

From Stdlib Require Import Ascii String DecimalString.
From Stdlib Require DecimalPos DecimalZ.
From stdpp Require Import gmap strings list fin_maps.

Local Set Warnings "-register-all".
Local Open Scope string_scope.
Local Open Scope Z_scope.

(** ** Python values *)

(** The values that [res.json()] can produce and that a PATCH body is made
    of.  A [dict] with string keys is a finite map.  A float is carried by
    its 64-bit pattern: the module never computes with one. *)
Inductive pyval : Type :=
| PNone
| PBool (b : bool)
| PInt (n : Z)
| PFloat (bits : Z)
| PStr (s : string)
| PList (l : list pyval)
| PDict (d : gmap string pyval).

(** [str(n)] for an [int]: the decimal numeral, with a leading [-] below
    zero. *)
Definition str_int (n : Z) : string := NilZero.string_of_int (Z.to_int n).

(** ** Exceptions *)

(** What the module observes of a traceback object: its [str()]. *)
Record traceback := { tb_str : string }.

(** What [build_step_run_update] observes of its [failure] argument. *)
Record exception := {
  exc_truthy : bool;                    (* bool(failure) *)
  exc_is_business : bool;               (* isinstance(failure, BusinessError) *)
  exc_type_name : string;               (* type(failure).__name__ *)
  exc_str : string;                     (* str(failure) *)
  exc_traceback : option traceback      (* failure.__traceback__ *)
}.

(** Exceptions in flight.  [RuntimeError] and [AttributeError] are the two
    this module can raise itself; a collaborator may raise anything. *)
Inductive exn : Type :=
| RuntimeError (msg : string)
| AttributeError (msg : string)
| Raised (e : exception).

Inductive result (A : Type) : Type :=
| Ok (a : A)
| Err (e : exn).
Arguments Ok {A} a.
Arguments Err {A} e.

(** ** Collaborators *)

(** A UTC [datetime], as [datetime.now(timezone.utc)] returns it. *)
Record datetime := {
  year : N; month : N; day : N;
  hour : N; minute : N; second : N;
  microsecond : N
}.

(** A response object: [res.json()] parses the body or raises, and
    [res.status_code] is the raw HTTP status. *)
Record response := {
  json : result pyval;
  status_code : Z
}.

(** The calls that leave the module, each with the type of its answer.  The
    [client] argument of the source is the handler that answers them.  The
    three identity resolvers come from the sibling modules [process],
    [process_step] and [process_run]; nothing is assumed of them but the
    type of what they return: they may answer anything and raise
    anything. *)
Inductive event : Type -> Type :=
| get_dashboard_process_id (process_name : string) : event Z
| get_dashboard_step_id (process_id : Z) (step_name : string) : event Z
| get_dashboard_run_id (process_id : Z) (cpr : string) : event Z
| client_get (path : string) : event response
| client_patch (path : string) (body : pyval) : event response
| datetime_now_utc : event datetime.

(** ** Programs *)

Inductive prog (A : Type) : Type :=
| Ret (a : A)
| Raise (e : exn)
| LoggerInfo (fmt : string) (args : list pyval) (k : prog A)
| Call {X : Type} (ev : event X) (k : X -> prog A).
Arguments Ret {A} a.
Arguments Raise {A} e.
Arguments LoggerInfo {A} fmt args k.
Arguments Call {A X} ev k.

Fixpoint bind {A B : Type} (p : prog A) (f : A -> prog B) : prog B :=
  match p with
  | Ret a => f a
  | Raise e => Raise e
  | LoggerInfo fmt args k => LoggerInfo fmt args (bind k f)
  | Call ev k => Call ev (fun x => bind (k x) f)
  end.

Definition call {X : Type} (ev : event X) : prog X := Call ev Ret.
Definition logger_info (fmt : string) (args : list pyval) : prog unit :=
  LoggerInfo fmt args (Ret tt).
Definition lift {A : Type} (r : result A) : prog A :=
  match r with Ok a => Ret a | Err e => Raise e end.

Notation "x <- c1 ;; c2" := (bind c1 (fun x => c2))
  (at level 100, c1 at next level, c2 at level 200, right associativity).
Notation "c1 ;; c2" := (bind c1 (fun _ => c2))
  (at level 100, c2 at level 200, right associativity).

(** What an execution leaves behind, in order. *)
Inductive entry : Type :=
| Logged (fmt : string) (args : list pyval)
| Called {X : Type} (ev : event X).

(** The outside world: a state [W] and, for every call, an answer or an
    exception together with the next state. *)
Definition handler (W : Type) : Type :=
  forall X : Type, event X -> W -> result X * W.

Record outcome (A W : Type) : Type := {
  returned : result A;
  world : W;
  trace : list entry
}.
Arguments returned {A W} o.
Arguments world {A W} o.
Arguments trace {A W} o.

(** An exception raised by a call ends the run: the source has no
    [try]. *)
Fixpoint run_from {A W : Type} (h : handler W) (p : prog A) (w : W)
    (tr : list entry) : outcome A W :=
  match p with
  | Ret a => {| returned := Ok a; world := w; trace := tr |}
  | Raise e => {| returned := Err e; world := w; trace := tr |}
  | LoggerInfo fmt args k => run_from h k w (tr ++ [Logged fmt args])
  | Call ev k =>
      match h _ ev w with
      | (Ok x, w') => run_from h (k x) w' (tr ++ [Called ev])
      | (Err e, w') =>
          {| returned := Err e; world := w'; trace := tr ++ [Called ev] |}
      end
  end.

Definition run {A W : Type} (h : handler W) (p : prog A) (w : W) : outcome A W :=
  run_from h p w [].

(** ** Strings and timestamps *)

(** Strings are byte strings: a character outside ASCII is its UTF-8
    bytes. *)
Definition newline : string := String "010"%char "".

(** [str.replace(old, new)]: the occurrences of [old] are replaced from left
    to right, without overlap.  [skip] counts the characters of a match
    still to be dropped. *)
Fixpoint replace_from (old new : string) (skip : nat) (s : string) : string :=
  match s with
  | EmptyString => EmptyString
  | String c s' =>
      match skip with
      | S k => replace_from old new k s'
      | O =>
          if String.prefix old s
          then new +:+ replace_from old new (Nat.pred (String.length old)) s'
          else String c (replace_from old new 0 s')
      end
  end.

(** With an empty [old], Python puts [new] before every character and at
    the end. *)
Fixpoint intersperse (new s : string) : string :=
  match s with
  | EmptyString => new
  | String c s' => new +:+ String c (intersperse new s')
  end.

Definition replace (old new s : string) : string :=
  match old with
  | EmptyString => intersperse new s
  | _ => replace_from old new 0 s
  end.

(** [%d] and the zero-padded [%0wd] of a number that is not negative. *)
Definition decimal (n : N) : string := NilEmpty.string_of_uint (N.to_uint n).

Fixpoint zeros (k : nat) : string :=
  match k with
  | O => EmptyString
  | S k' => String "0"%char (zeros k')
  end.

Definition zero_padded (width : nat) (n : N) : string :=
  zeros (width - String.length (decimal n)) +:+ decimal n.

(** [dt.isoformat(timespec="milliseconds")] for a [datetime] whose
    [tzinfo] is [timezone.utc]. *)
Definition isoformat_milliseconds (dt : datetime) : string :=
  zero_padded 4 (year dt) +:+ "-" +:+ zero_padded 2 (month dt) +:+ "-"
  +:+ zero_padded 2 (day dt) +:+ "T"
  +:+ zero_padded 2 (hour dt) +:+ ":" +:+ zero_padded 2 (minute dt) +:+ ":"
  +:+ zero_padded 2 (second dt) +:+ "."
  +:+ zero_padded 3 (microsecond dt / 1000)%N
  +:+ "+00:00".

(** The ranges the [datetime] type keeps its fields in. *)
Definition valid_datetime (dt : datetime) : bool :=
  ((1 <=? year dt) && (year dt <=? 9999)
   && (1 <=? month dt) && (month dt <=? 12)
   && (1 <=? day dt) && (day dt <=? 31)
   && (hour dt <? 24) && (minute dt <? 60) && (second dt <? 60)
   && (microsecond dt <? 1000000))%N.

(** ** The module *)

Definition py_type_name (v : pyval) : string :=
  match v with
  | PNone => "NoneType"
  | PBool _ => "bool"
  | PInt _ => "int"
  | PFloat _ => "float"
  | PStr _ => "str"
  | PList _ => "list"
  | PDict _ => "dict"
  end.

(** [v.get(key)]: a [dict] answers with the value or [None]; no other JSON
    value has a [get]. *)
Definition py_get (v : pyval) (key : string) : result pyval :=
  match v with
  | PDict d => Ok (default PNone (d !! key))
  | _ =>
      Err (AttributeError
             ("'" +:+ py_type_name v +:+ "' object has no attribute 'get'"))
  end.

Definition get_step_run_id_for_process_step_cpr
    (process_name step_name cpr : string) : prog pyval :=
  logger_info "Finding step-run ID for %s / %s / %s"
    [PStr process_name; PStr step_name; PStr cpr] ;;
  process_id <- call (get_dashboard_process_id process_name) ;;
  step_id <- call (get_dashboard_step_id process_id step_name) ;;
  run_id <- call (get_dashboard_run_id process_id cpr) ;;
  res <- call (client_get ("step-runs/run/" +:+ str_int run_id +:+ "/step/"
                           +:+ str_int step_id +:+ "?include_deleted=false")) ;;
  step_run <- lift (json res) ;;
  step_run_id <- lift (py_get step_run "id") ;;
  match step_run_id with
  | PNone =>
      Raise (RuntimeError
               "Step run ID not found for process/step/CPR combination.")
  | _ => Ret step_run_id
  end.

Definition application_failure : gmap string pyval :=
  <["details" :=
      PStr ("Digitalisering undersøger fejlen og genstarter processen."
            +:+ newline +:+ newline
            +:+ "Kontakt Digitalisering hvis det ikke er løst efter 2 arbejdsdage.")]>
  (<["message" := PStr "Processen er fejlet"]>
  (<["error_code" := PStr "ApplicationException"]> ∅)).

Definition business_failure (e : exception) : gmap string pyval :=
  <["details" :=
      match exc_traceback e with
      | Some tb => PStr (tb_str tb)
      | None => PNone
      end]>
  (<["message" := PStr (exc_str e)]>
  (<["error_code" := PStr (exc_type_name e)]> ∅)).

(** The value of the local [failure_data] when the payload is built. *)
Definition failure_data (failure : option exception) : pyval :=
  match failure with
  | Some e =>
      if exc_truthy e
      then if exc_is_business e
           then PDict (business_failure e)
           else PDict application_failure
      else PNone
  | None => PNone
  end.

Definition build_step_run_update (status : string)
    (failure : option exception) : prog pyval :=
  dt <- call datetime_now_utc ;;
  let now := replace "+00:00" "Z" (isoformat_milliseconds dt) in
  Ret (PDict (<["failure" := failure_data failure]>
             (<["finished_at" := PStr now]>
             (<["started_at" := PStr now]>
             (<["status" := PStr status]> ∅))))).

Definition update_dashboard_step_run_by_id (step_run_id : Z)
    (update_data : pyval) : prog (pyval * Z) :=
  logger_info "Updating step run ID %s" [PInt step_run_id] ;;
  res <- call (client_patch ("step-runs/" +:+ str_int step_run_id) update_data) ;;
  body <- lift (json res) ;;
  Ret (body, status_code res).

(** ** Vocabulary of the statements *)

(** [v[key]] read off a payload, for stating what a [dict] holds. *)
Definition field (v : pyval) (key : string) : option pyval :=
  match v with
  | PDict d => d !! key
  | _ => None
  end.

Definition step_run_path (run_id step_id : Z) : string :=
  "step-runs/run/" +:+ str_int run_id +:+ "/step/" +:+ str_int step_id
  +:+ "?include_deleted=false".

Definition not_found : exn :=
  RuntimeError "Step run ID not found for process/step/CPR combination.".

Definition finding_logged (process_name step_name cpr : string) : entry :=
  Logged "Finding step-run ID for %s / %s / %s"
    [PStr process_name; PStr step_name; PStr cpr].

(** The three identity collaborators and the GET all answer, one after the
    other, and the GET answers with [res]. *)
Definition lookups_succeed {W : Type} (h : handler W) (w : W)
    (process_name step_name cpr : string) (res : response) (w' : W) : Prop :=
  exists process_id step_id run_id w1 w2 w3,
    h _ (get_dashboard_process_id process_name) w = (Ok process_id, w1) /\
    h _ (get_dashboard_step_id process_id step_name) w1 = (Ok step_id, w2) /\
    h _ (get_dashboard_run_id process_id cpr) w2 = (Ok run_id, w3) /\
    h _ (client_get (step_run_path run_id step_id)) w3 = (Ok res, w').

(** A scripted outside world for the examples: every collaborator has one
    fixed answer, and the state counts the calls answered. *)
Definition scripted (process_id step_id run_id : result Z)
    (res : result response) (clock : datetime) : handler nat :=
  fun X ev w =>
    match ev in event X return result X * nat with
    | get_dashboard_process_id _ => (process_id, S w)
    | get_dashboard_step_id _ _ => (step_id, S w)
    | get_dashboard_run_id _ _ => (run_id, S w)
    | client_get _ => (res, S w)
    | client_patch _ _ => (res, S w)
    | datetime_now_utc => (Ok clock, S w)
    end.

Definition a_moment : datetime :=
  {| year := 2024; month := 3; day := 7;
     hour := 9; minute := 5; second := 1; microsecond := 42999 |}.

Definition found (id : pyval) (code : Z) : response :=
  {| json := Ok (PDict {["id" := id]}); status_code := code |}.

Definition a_later_moment : datetime :=
  {| year := 2024; month := 3; day := 7;
     hour := 9; minute := 5; second := 2; microsecond := 500 |}.

Definition refused (detail : string) (code : Z) : response :=
  {| json := Ok (PDict {["detail" := PStr detail]}); status_code := code |}.

Definition a_dashboard : handler nat :=
  scripted (Ok 7) (Ok 8) (Ok 9) (Ok (found (PInt 5) 200)) a_moment.

Definition a_later_dashboard : handler nat :=
  scripted (Ok 7) (Ok 8) (Ok 9) (Ok (found (PInt 5) 200)) a_later_moment.


Definition a_dashboard_without_step : handler nat :=
  scripted (Ok 7) (Err (RuntimeError "Step not found")) (Ok 9)
    (Ok (found (PInt 5) 200)) a_moment.

Definition a_broken_dashboard : handler nat :=
  scripted (Ok 7) (Ok 8) (Ok 9) (Ok (refused "Internal Server Error" 500))
    a_moment.

(** What a run returned under [key], and under [key] of its [failure]. *)
Definition returned_field {W : Type} (o : outcome pyval W) (key : string)
    : option pyval :=
  match returned o with
  | Ok p => field p key
  | Err _ => None
  end.

Definition failure_field {W : Type} (o : outcome pyval W) (key : string)
    : option pyval :=
  match returned_field o "failure" with
  | Some f => field f key
  | None => None
  end.

Definition application_details : string :=
  "Digitalisering undersøger fejlen og genstarter processen."
  +:+ newline +:+ newline
  +:+ "Kontakt Digitalisering hvis det ikke er løst efter 2 arbejdsdage.".

(** Failures for the examples.  [X_boom] is a business error of class [X]
    with text [boom]; the [silent] ones define [__bool__] to answer
    [False]. *)
Definition X_boom : exception :=
  {| exc_truthy := true; exc_is_business := true;
     exc_type_name := "X"; exc_str := "boom"; exc_traceback := None |}.

Definition X_boom_raised : exception :=
  {| exc_truthy := true; exc_is_business := true;
     exc_type_name := "X"; exc_str := "boom";
     exc_traceback :=
       Some {| tb_str := "<traceback object at 0x7f3a5c1d2e80>" |} |}.

Definition silent_business_error : exception :=
  {| exc_truthy := false; exc_is_business := true;
     exc_type_name := "SilentBusinessError"; exc_str := "boom";
     exc_traceback := None |}.

Definition key_error : exception :=
  {| exc_truthy := true; exc_is_business := false;
     exc_type_name := "KeyError"; exc_str := "'password'";
     exc_traceback := None |}.

Definition timeout_error : exception :=
  {| exc_truthy := true; exc_is_business := false;
     exc_type_name := "TimeoutError"; exc_str := "db01 unreachable";
     exc_traceback :=
       Some {| tb_str := "<traceback object at 0x7f3a5c1d2e80>" |} |}.

Definition silent_fault : exception :=
  {| exc_truthy := false; exc_is_business := false;
     exc_type_name := "SilentFault"; exc_str := "secret";
     exc_traceback := None |}.

(** *** Shapes of strings *)

Definition is_digit (c : ascii) : bool :=
  match c with
  | "0" | "1" | "2" | "3" | "4" | "5" | "6" | "7" | "8" | "9" => true
  | _ => false
  end%char.

Fixpoint all_digits (s : string) : bool :=
  match s with
  | EmptyString => true
  | String c s' => is_digit c && all_digits s'
  end.

(** [c] is no character of [s]. *)
Fixpoint without (c : ascii) (s : string) : bool :=
  match s with
  | EmptyString => true
  | String a s' => negb (Ascii.eqb c a) && without c s'
  end.

(** [sub in s]. *)
Fixpoint occurs (sub s : string) : bool :=
  String.prefix sub s
  || match s with
     | EmptyString => false
     | String _ s' => occurs sub s'
     end.

Fixpoint eat_digits (k : nat) (s : string) : option string :=
  match k, s with
  | O, _ => Some s
  | S k', String c s' => if is_digit c then eat_digits k' s' else None
  | S _, EmptyString => None
  end.

Definition eat (c : ascii) (s : string) : option string :=
  match s with
  | String a s' => if Ascii.eqb c a then Some s' else None
  | EmptyString => None
  end.

Inductive piece : Type :=
| Digits (k : nat)
| Lit (c : ascii).

Fixpoint matches (shape : list piece) (s : string) : bool :=
  match shape with
  | [] => match s with EmptyString => true | _ => false end
  | Digits k :: shape' =>
      match eat_digits k s with
      | Some s' => matches shape' s'
      | None => false
      end
  | Lit c :: shape' =>
      match eat c s with
      | Some s' => matches shape' s'
      | None => false
      end
  end.

(** [YYYY-MM-DDTHH:MM:SS.mmmZ] and nothing else: ISO-8601 in UTC, to the
    millisecond, with the literal [Z]. *)
Definition is_iso8601_ms_z (s : string) : bool :=
  matches
    [Digits 4; Lit "-"; Digits 2; Lit "-"; Digits 2; Lit "T";
     Digits 2; Lit ":"; Digits 2; Lit ":"; Digits 2; Lit "."; Digits 3;
     Lit "Z"] s.

(** The timestamp the payload should carry for the instant [dt]. *)
Definition iso8601_ms_z (dt : datetime) : string :=
  zero_padded 4 (year dt) +:+ "-" +:+ zero_padded 2 (month dt) +:+ "-"
  +:+ zero_padded 2 (day dt) +:+ "T"
  +:+ zero_padded 2 (hour dt) +:+ ":" +:+ zero_padded 2 (minute dt) +:+ ":"
  +:+ zero_padded 2 (second dt) +:+ "."
  +:+ zero_padded 3 (microsecond dt / 1000)%N
  +:+ "Z".

(** Every number below [bound] has at most [width] decimal digits. *)
Definition short_below (bound : N) (width : nat) : bool :=
  forallb (fun k => String.length (decimal (N.of_nat k)) <=? width)%nat
    (seq 0 (N.to_nat bound)).

(** *** Further outside worlds *)

Definition json_decode_error : exception :=
  {| exc_truthy := true; exc_is_business := false;
     exc_type_name := "JSONDecodeError";
     exc_str := "Expecting value: line 1 column 1 (char 0)";
     exc_traceback := None |}.

Definition connection_error : exception :=
  {| exc_truthy := true; exc_is_business := false;
     exc_type_name := "ConnectionError"; exc_str := "connection refused";
     exc_traceback := None |}.

(** A response whose body is no JSON. *)
Definition unparsable (code : Z) : response :=
  {| json := Err (Raised json_decode_error); status_code := code |}.

Definition a_dashboard_answering_html : handler nat :=
  scripted (Ok 7) (Ok 8) (Ok 9) (Ok (unparsable 502)) a_moment.

Definition a_dashboard_answering_a_list : handler nat :=
  scripted (Ok 7) (Ok 8) (Ok 9)
    (Ok {| json := Ok (PList []); status_code := 200 |}) a_moment.

Definition a_dashboard_down : handler nat :=
  scripted (Ok 7) (Ok 8) (Ok 9) (Err (Raised connection_error)) a_moment.

Definition a_dashboard_answering_404_with_id : handler nat :=
  scripted (Ok 1) (Ok 2) (Ok 3) (Ok (found (PInt 5) 404)) a_moment.

(** Everything a complete run of the resolver leaves in the trace. *)
Definition lookup_calls (process_name step_name cpr : string)
    (process_id step_id run_id : Z) : list entry :=
  [finding_logged process_name step_name cpr;
   Called (get_dashboard_process_id process_name);
   Called (get_dashboard_step_id process_id step_name);
   Called (get_dashboard_run_id process_id cpr);
   Called (client_get (step_run_path run_id step_id))].

(** *** Timestamps as numbers *)

Definition digit_value (c : ascii) : N := (N_of_ascii c - 48)%N.

(** The number a string of decimal digits writes. *)
Fixpoint digits_value (s : string) : N :=
  match s with
  | EmptyString => 0
  | String c s' =>
      digit_value c * 10 ^ N.of_nat (String.length s') + digits_value s'
  end%N.

(** Every number below [bound], padded to [width], reads back as itself. *)
Definition reads_back_below (bound : N) (width : nat) : bool :=
  forallb
    (fun k => digits_value (zero_padded width (N.of_nat k)) =? N.of_nat k)%N
    (seq 0 (N.to_nat bound)).

(** The second comparison decides where the first finds no difference. *)
Definition lexico (c c' : comparison) : comparison :=
  match c with
  | Eq => c'
  | _ => c
  end.

(** The order of two instants, looked at down to the millisecond. *)
Definition compare_to_millisecond (dt1 dt2 : datetime) : comparison :=
  (lexico (year dt1 ?= year dt2)
  (lexico (month dt1 ?= month dt2)
  (lexico (day dt1 ?= day dt2)
  (lexico (hour dt1 ?= hour dt2)
  (lexico (minute dt1 ?= minute dt2)
  (lexico (second dt1 ?= second dt2)
          (microsecond dt1 / 1000 ?= microsecond dt2 / 1000)))))))%N.

(** 399 microseconds after [a_moment], in the same millisecond. *)
Definition a_moment_later : datetime :=
  {| year := 2024; month := 3; day := 7;
     hour := 9; minute := 5; second := 1; microsecond := 42001 |}.

Definition a_dashboard_a_moment_later : handler nat :=
  scripted (Ok 7) (Ok 8) (Ok 9) (Ok (found (PInt 5) 200)) a_moment_later.

(** ** Running programs *)

Section Running.
Context {W : Type} (h : handler W).

Lemma run_from_bind {A B : Type} (p : prog A) (f : A -> prog B) w tr :
  run_from h (bind p f) w tr =
  match returned (run_from h p w tr) with
  | Ok a => run_from h (f a) (world (run_from h p w tr))
              (trace (run_from h p w tr))
  | Err e =>
      {| returned := Err e;
         world := world (run_from h p w tr);
         trace := trace (run_from h p w tr) |}
  end.
Proof.
  revert w tr.
  induction p as [a | e | fmt args k IH | X ev k IH]; intros w tr; cbn.
  - reflexivity.
  - reflexivity.
  - apply IH.
  - destruct (h X ev w) as [[x | e] w']; [apply IH | reflexivity].
Qed.

Lemma run_from_call_ok {X : Type} (ev : event X) x w w' tr :
  h X ev w = (Ok x, w') ->
  run_from h (call ev) w tr =
  {| returned := Ok x; world := w'; trace := tr ++ [Called ev] |}.
Proof. intros E. cbn. rewrite E. reflexivity. Qed.

Lemma run_from_call_err {X : Type} (ev : event X) e w w' tr :
  h X ev w = (Err e, w') ->
  run_from h (call ev) w tr =
  {| returned := Err e; world := w'; trace := tr ++ [Called ev] |}.
Proof. intros E. cbn. rewrite E. reflexivity. Qed.

Lemma run_from_logger_info fmt args w tr :
  run_from h (logger_info fmt args) w tr =
  {| returned := Ok tt; world := w; trace := tr ++ [Logged fmt args] |}.
Proof. reflexivity. Qed.

Lemma run_from_lift {A : Type} (r : result A) w tr :
  run_from h (lift r) w tr = {| returned := r; world := w; trace := tr |}.
Proof. destruct r; reflexivity. Qed.
End Running.

(** One step of a run whose next call is answered by hypothesis. *)
Ltac run_step :=
  rewrite run_from_bind;
  first
    [ rewrite run_from_logger_info
    | rewrite run_from_lift
    | erewrite run_from_call_ok by eassumption
    | erewrite run_from_call_err by eassumption ];
  cbn [returned world trace app].

(** ** The step-run resolver *)

Section Resolver.
Context {W : Type} (h : handler W).
Variables process_name step_name cpr : string.

Local Abbreviation resolver :=
  (get_step_run_id_for_process_step_cpr process_name step_name cpr).

(** Once the lookups have answered, the result is decided by the [id]
    entry of the body alone. *)
Lemma run_resolver_body w res w' d :
  lookups_succeed h w process_name step_name cpr res w' ->
  json res = Ok (PDict d) ->
  returned (run h resolver w) =
  match default PNone (d !! "id") with
  | PNone => Err not_found
  | v => Ok v
  end.
Proof.
  intros (pid & sid & rid & w1 & w2 & w3 & H1 & H2 & H3 & H4) Hjson.
  unfold step_run_path in H4.
  unfold run, get_step_run_id_for_process_step_cpr.
  do 5 run_step. rewrite Hjson. do 2 run_step. cbn [py_get].
  destruct (default PNone (d !! "id")); reflexivity.
Qed.



(** C1. When the three identity collaborators and the GET succeed and the
    body of the response holds a non-null [id], the resolver returns
    exactly the value of that [id]. *)
Theorem resolver_returns_the_id w res w' d v :
  lookups_succeed h w process_name step_name cpr res w' ->
  json res = Ok (PDict d) ->
  d !! "id" = Some v ->
  v <> PNone ->
  returned (run h resolver w) = Ok v.
Proof.
  intros Hchain Hjson Hid Hv.
  rewrite (run_resolver_body w res w' d Hchain Hjson), Hid. cbn.
  destruct v; congruence.
Qed.


(** C8. The lookups run in the order process id, step id, run id, GET,
    each on the results of the ones before it; an exception from any of
    them is the outcome of the whole call, and nothing is called after
    it. *)
Theorem resolver_lookup_order w :
  (forall e w1,
      h _ (get_dashboard_process_id process_name) w = (Err e, w1) ->
      run h resolver w =
      {| returned := Err e; world := w1;
         trace := [finding_logged process_name step_name cpr;
                   Called (get_dashboard_process_id process_name)] |})
  /\ (forall process_id w1,
      h _ (get_dashboard_process_id process_name) w = (Ok process_id, w1) ->
      (forall e w2,
          h _ (get_dashboard_step_id process_id step_name) w1 = (Err e, w2) ->
          run h resolver w =
          {| returned := Err e; world := w2;
             trace := [finding_logged process_name step_name cpr;
                       Called (get_dashboard_process_id process_name);
                       Called (get_dashboard_step_id process_id step_name)] |})
      /\ (forall step_id w2,
          h _ (get_dashboard_step_id process_id step_name) w1 = (Ok step_id, w2) ->
          (forall e w3,
              h _ (get_dashboard_run_id process_id cpr) w2 = (Err e, w3) ->
              run h resolver w =
              {| returned := Err e; world := w3;
                 trace := [finding_logged process_name step_name cpr;
                           Called (get_dashboard_process_id process_name);
                           Called (get_dashboard_step_id process_id step_name);
                           Called (get_dashboard_run_id process_id cpr)] |})
          /\ (forall run_id w3,
              h _ (get_dashboard_run_id process_id cpr) w2 = (Ok run_id, w3) ->
              let path :=
                "step-runs/run/" +:+ str_int run_id +:+ "/step/"
                +:+ str_int step_id +:+ "?include_deleted=false" in
              let calls :=
                [finding_logged process_name step_name cpr;
                 Called (get_dashboard_process_id process_name);
                 Called (get_dashboard_step_id process_id step_name);
                 Called (get_dashboard_run_id process_id cpr);
                 Called (client_get path)] in
              (forall e w4,
                  h _ (client_get path) w3 = (Err e, w4) ->
                  run h resolver w =
                  {| returned := Err e; world := w4; trace := calls |})
              /\ (forall res w4,
                  h _ (client_get path) w3 = (Ok res, w4) ->
                  world (run h resolver w) = w4
                  /\ trace (run h resolver w) = calls)))).
Proof.
  unfold run, get_step_run_id_for_process_step_cpr, finding_logged.
  split; [intros e w1 H1; now do 2 run_step |].
  intros pid w1 H1.
  split; [intros e w2 H2; now do 3 run_step |].
  intros sid w2 H2.
  split; [intros e w3 H3; now do 4 run_step |].
  intros rid w3 H3.
  split; [intros e w4 H4; now do 5 run_step |].
  intros res w4 H4. do 6 run_step.
  destruct (json res) as [body | e]; cbn [returned world trace]; [| now split].
  run_step. destruct (py_get body "id") as [i | e]; [| now split].
  destruct i; now split.
Qed.
End Resolver.

(** ** Timestamps *)

Lemma append_nil (t : string) : "" +:+ t = t.
Proof. reflexivity. Qed.

Lemma append_cons c (s t : string) : String c s +:+ t = String c (s +:+ t).
Proof. reflexivity. Qed.

Lemma length_append (s t : string) :
  String.length (s +:+ t) = (String.length s + String.length t)%nat.
Proof.
  induction s as [| c s IH]; [reflexivity |].
  rewrite append_cons. cbn. now f_equal.
Qed.

Lemma all_digits_app (s t : string) :
  all_digits (s +:+ t) = all_digits s && all_digits t.
Proof.
  induction s as [| c s IH]; [reflexivity |].
  rewrite append_cons. cbn. now rewrite IH, andb_assoc.
Qed.

Lemma all_digits_zeros k : all_digits (zeros k) = true.
Proof. induction k; cbn; auto. Qed.

Lemma length_zeros k : String.length (zeros k) = k.
Proof. induction k; cbn; auto. Qed.

Lemma all_digits_decimal n : all_digits (decimal n) = true.
Proof.
  unfold decimal. induction (N.to_uint n); cbn; auto.
Qed.

Lemma all_digits_zero_padded width n : all_digits (zero_padded width n) = true.
Proof.
  unfold zero_padded.
  now rewrite all_digits_app, all_digits_zeros, all_digits_decimal.
Qed.

Lemma decimal_short bound width n :
  short_below bound width = true ->
  (n < bound)%N ->
  (String.length (decimal n) <= width)%nat.
Proof.
  unfold short_below. intros Hall Hn.
  rewrite forallb_forall in Hall.
  specialize (Hall (N.to_nat n)).
  rewrite N2Nat.id in Hall.
  apply Nat.leb_le, Hall, in_seq. lia.
Qed.

Lemma length_zero_padded bound width n :
  short_below bound width = true ->
  (n < bound)%N ->
  String.length (zero_padded width n) = width.
Proof.
  intros Hall Hn. unfold zero_padded.
  rewrite length_append, length_zeros.
  pose proof (decimal_short bound width n Hall Hn). lia.
Qed.

Lemma is_digit_not_plus c : is_digit c = true -> Ascii.eqb "+" c = false.
Proof.
  destruct c as [[|] [|] [|] [|] [|] [|] [|] [|]]; cbn; congruence.
Qed.

Lemma all_digits_without_plus s : all_digits s = true -> without "+" s = true.
Proof.
  induction s as [| c s IH]; cbn [all_digits without]; [reflexivity |].
  intros [Hc Hs]%andb_true_iff.
  now rewrite (is_digit_not_plus c Hc), IH.
Qed.

Lemma without_app c s t : without c (s +:+ t) = without c s && without c t.
Proof.
  induction s as [| a s IH]; [reflexivity |].
  rewrite append_cons. cbn. now rewrite IH, andb_assoc.
Qed.

Lemma prefix_other_head c old a s :
  Ascii.eqb c a = false -> String.prefix (String c old) (String a s) = false.
Proof.
  intros Hne. cbn. destruct (ascii_dec c a) as [-> |]; [| reflexivity].
  now rewrite Ascii.eqb_refl in Hne.
Qed.

(** [replace] copies a stretch in which the first character of [old] does
    not occur. *)
Lemma replace_from_without c old new s t :
  without c s = true ->
  replace_from (String c old) new 0 (s +:+ t) =
  s +:+ replace_from (String c old) new 0 t.
Proof.
  induction s as [| a s IH]; [reflexivity |].
  cbn [without]. intros [Ha Hs]%andb_true_iff.
  apply negb_true_iff in Ha.
  rewrite !append_cons. cbn [replace_from]. rewrite (prefix_other_head c old a _ Ha).
  now rewrite IH.
Qed.

Lemma occurs_without c sub s :
  without c s = true -> occurs (String c sub) s = false.
Proof.
  induction s as [| a s IH]; [reflexivity |].
  cbn [without occurs]. intros [Ha Hs]%andb_true_iff.
  apply negb_true_iff in Ha.
  now rewrite (prefix_other_head c sub a s Ha), IH.
Qed.

Lemma eat_digits_app k s t :
  all_digits s = true -> String.length s = k ->
  eat_digits k (s +:+ t) = Some t.
Proof.
  revert k. induction s as [| c s IH]; intros k Hd <-; [reflexivity |].
  cbn in Hd. apply andb_true_iff in Hd as [Hc Hs].
  rewrite append_cons. cbn. rewrite Hc. now apply IH.
Qed.

(** The timestamp of the payload is the ISO-8601 rendering with [Z] for the
    offset. *)
Lemma now_is_iso8601_ms_z dt :
  replace "+00:00" "Z" (isoformat_milliseconds dt) = iso8601_ms_z dt.
Proof.
  unfold replace, isoformat_milliseconds, iso8601_ms_z.
  repeat (rewrite replace_from_without;
          [ apply (f_equal (String.append _))
          | first [ apply all_digits_without_plus, all_digits_zero_padded
                  | reflexivity ] ]).
  reflexivity.
Qed.

Lemma iso8601_ms_z_without_plus dt : without "+" (iso8601_ms_z dt) = true.
Proof.
  unfold iso8601_ms_z.
  repeat (rewrite without_app;
          rewrite ?(all_digits_without_plus _ (all_digits_zero_padded _ _));
          cbn [without Ascii.eqb Bool.eqb negb andb]).
  reflexivity.
Qed.

Lemma eat_zero_padded bound width n t :
  short_below bound width = true ->
  (n < bound)%N ->
  eat_digits width (zero_padded width n +:+ t) = Some t.
Proof.
  intros Hall Hn. apply eat_digits_app.
  - apply all_digits_zero_padded.
  - now apply (length_zero_padded bound).
Qed.

Lemma short_below_100 : short_below 100 2 = true.
Proof. vm_compute. reflexivity. Qed.

Lemma short_below_1000 : short_below 1000 3 = true.
Proof. vm_compute. reflexivity. Qed.

Lemma short_below_10000 : short_below 10000 4 = true.
Proof. vm_compute. reflexivity. Qed.

Ltac eat_field bound fact :=
  rewrite (eat_zero_padded bound _ _ _ fact) by lia;
  rewrite ?append_cons, ?append_nil;
  cbn [matches eat Ascii.eqb Bool.eqb].

Lemma iso8601_ms_z_shape dt :
  valid_datetime dt = true -> is_iso8601_ms_z (iso8601_ms_z dt) = true.
Proof.
  unfold valid_datetime. rewrite !andb_true_iff.
  intros [[[[[[[[[_ Hy] _] Hm] _] Hd] Hh] Hmi] Hs] Hus].
  apply N.leb_le in Hy, Hm, Hd. apply N.ltb_lt in Hh, Hmi, Hs, Hus.
  assert (Hms : (microsecond dt / 1000 < 1000)%N)
    by (apply N.Div0.div_lt_upper_bound; lia).
  unfold is_iso8601_ms_z, iso8601_ms_z. cbn [matches].
  eat_field 10000%N short_below_10000.
  do 5 eat_field 100%N short_below_100.
  eat_field 1000%N short_below_1000.
  reflexivity.
Qed.


(** ** The update-payload builder *)

Section Builder.
Context {W : Type} (h : handler W).

Lemma run_builder w dt w' status failure :
  h _ datetime_now_utc w = (Ok dt, w') ->
  run h (build_step_run_update status failure) w =
  {| returned :=
       Ok (PDict (<["failure" := failure_data failure]>
                 (<["finished_at" := PStr (iso8601_ms_z dt)]>
                 (<["started_at" := PStr (iso8601_ms_z dt)]>
                 (<["status" := PStr status]> ∅)))));
     world := w';
     trace := [Called datetime_now_utc] |}.
Proof.
  intros Hnow. unfold run, build_step_run_update.
  run_step. cbn [run_from]. now rewrite now_is_iso8601_ms_z.
Qed.
End Builder.

(** Reads the fields of a payload built under a clock that answered. *)
Ltac read_payload Hnow :=
  unfold failure_field, returned_field;
  rewrite ?(run_builder _ _ _ _ _ _ Hnow);
  cbn [returned world trace field failure_data].

Section Payload.
Context {W : Type} (h : handler W).
Variables (w w' : W) (dt : datetime).
Hypothesis clock : h _ datetime_now_utc w = (Ok dt, w').

(** C3, as amended.  For a failure that is a business error and
    evaluates as true, the payload's failure has the class name as
    [error_code], the text of the error as [message], and as [details]
    the [str] of the traceback when one is attached and null
    otherwise. *)
Theorem business_error_payload status e :
  exc_truthy e = true ->
  exc_is_business e = true ->
  let o := run h (build_step_run_update status (Some e)) w in
  failure_field o "error_code" = Some (PStr (exc_type_name e))
  /\ failure_field o "message" = Some (PStr (exc_str e))
  /\ failure_field o "details" =
     Some (match exc_traceback e with
           | Some tb => PStr (tb_str tb)
           | None => PNone
           end).
Proof.
  intros Ht Hb o. subst o. read_payload clock. rewrite Ht, Hb.
  rewrite lookup_insert_eq. cbn [field]. unfold business_failure.
  repeat split; by simplify_map_eq.
Qed.

(** C4, as amended.  For a failure that is not a business error and
    evaluates as true, the payload's failure is the fixed record with
    [error_code] "ApplicationException", the fixed message and the fixed
    details and nothing else; the whole payload is the same for any two
    such failures, whatever their class, text or traceback. *)
Theorem application_error_payload status e :
  exc_truthy e = true ->
  exc_is_business e = false ->
  let o := run h (build_step_run_update status (Some e)) w in
  (exists f : gmap string pyval,
      returned_field o "failure" = Some (PDict f)
      /\ dom f = ({["error_code"; "message"; "details"]} : gset string))
  /\ failure_field o "error_code" = Some (PStr "ApplicationException")
  /\ failure_field o "message" = Some (PStr "Processen er fejlet")
  /\ failure_field o "details" = Some (PStr application_details)
  /\ (forall e',
         exc_truthy e' = true ->
         exc_is_business e' = false ->
         returned (run h (build_step_run_update status (Some e')) w)
         = returned o).
Proof.
  intros Ht Hb o. subst o. split; [| repeat split].
  - exists application_failure. read_payload clock. rewrite Ht, Hb.
    rewrite lookup_insert_eq. split; [reflexivity |].
    unfold application_failure. rewrite !dom_insert_L. set_solver.
  - read_payload clock. rewrite Ht, Hb. by simplify_map_eq.
  - read_payload clock. rewrite Ht, Hb. by simplify_map_eq.
  - read_payload clock. rewrite Ht, Hb. by simplify_map_eq.
  - intros e' Ht' Hb'. read_payload clock. now rewrite Ht, Hb, Ht', Hb'.
Qed.

(** C5.  With status "success" and no failure the payload has status
    "success", a null failure, and the same string under [started_at]
    and [finished_at]: the clock, read once, in ISO-8601 to the
    millisecond with a final [Z] and no [+00:00]. *)
Theorem success_payload :
  valid_datetime dt = true ->
  let o := run h (build_step_run_update "success" None) w in
  returned_field o "status" = Some (PStr "success")
  /\ returned_field o "failure" = Some PNone
  /\ returned_field o "started_at" = Some (PStr (iso8601_ms_z dt))
  /\ returned_field o "finished_at" = returned_field o "started_at"
  /\ trace o = [Called datetime_now_utc]
  /\ is_iso8601_ms_z (iso8601_ms_z dt) = true
  /\ occurs "+00:00" (iso8601_ms_z dt) = false.
Proof.
  intros Hvalid o. subst o. read_payload clock.
  repeat split; try by simplify_map_eq.
  - now apply iso8601_ms_z_shape.
  - apply (occurs_without "+"), iso8601_ms_z_without_plus.
Qed.

(** C9.  A failure that is given but evaluates as false leaves the
    payload's failure null, business error or not. *)
Theorem falsy_failure_is_dropped status e :
  exc_truthy e = false ->
  returned_field (run h (build_step_run_update status (Some e)) w) "failure"
  = Some PNone.
Proof.
  intros Hf. read_payload clock. rewrite Hf. by simplify_map_eq.
Qed.

(** C10.  Whatever the status and the failure, the result is a [dict]
    with the four keys [status], [started_at], [finished_at] and
    [failure] and no other, and its [status] is the string given. *)
Theorem payload_keys status failure :
  exists d : gmap string pyval,
    returned (run h (build_step_run_update status failure) w) = Ok (PDict d)
    /\ dom d =
       ({["status"; "started_at"; "finished_at"; "failure"]} : gset string)
    /\ d !! "status" = Some (PStr status).
Proof.
  rewrite (run_builder h _ _ _ _ _ clock). cbn [returned].
  eexists. split; [reflexivity |]. split.
  - rewrite !dom_insert_L. set_solver.
  - by simplify_map_eq.
Qed.
End Payload.

(** C6.  Two calls with the same status and failure return the same payload
    when the clock answers the same, and payloads that agree on every key
    but [started_at] and [finished_at] when it does not. *)
Theorem payload_deterministic {W1 W2 : Type} (h1 : handler W1)
    (h2 : handler W2) w1 w1' w2 w2' dt1 dt2 status failure :
  h1 _ datetime_now_utc w1 = (Ok dt1, w1') ->
  h2 _ datetime_now_utc w2 = (Ok dt2, w2') ->
  let o1 := run h1 (build_step_run_update status failure) w1 in
  let o2 := run h2 (build_step_run_update status failure) w2 in
  (dt1 = dt2 -> returned o1 = returned o2)
  /\ (forall key,
        key <> "started_at" -> key <> "finished_at" ->
        returned_field o1 key = returned_field o2 key)
  /\ (exists d1 d2 : gmap string pyval,
        returned o1 = Ok (PDict d1) /\ returned o2 = Ok (PDict d2)
        /\ delete "started_at" (delete "finished_at" d1)
           = delete "started_at" (delete "finished_at" d2)).
Proof.
  intros H1 H2 o1 o2. subst o1 o2. unfold returned_field.
  rewrite (run_builder h1 _ _ _ _ _ H1), (run_builder h2 _ _ _ _ _ H2).
  cbn [returned field]. split; [| split].
  - intros E. rewrite E. reflexivity.
  - intros key Hs Hf.
    destruct (decide (key = "failure")) as [-> | Hk]; [by simplify_map_eq |].
    rewrite !(lookup_insert_ne _ "failure"),
            !(lookup_insert_ne _ "finished_at"),
            !(lookup_insert_ne _ "started_at") by congruence.
    reflexivity.
  - do 2 eexists. split; [reflexivity |]. split; [reflexivity |].
    apply map_eq. intros key.
    destruct (decide (key = "started_at")) as [-> | Hs];
      [by rewrite !lookup_delete_eq |].
    rewrite !(lookup_delete_ne _ "started_at") by congruence.
    destruct (decide (key = "finished_at")) as [-> | Hf];
      [by rewrite !lookup_delete_eq |].
    rewrite !(lookup_delete_ne _ "finished_at") by congruence.
    destruct (decide (key = "failure")) as [-> | Hk]; [by simplify_map_eq |].
    rewrite !(lookup_insert_ne _ "failure"),
            !(lookup_insert_ne _ "finished_at"),
            !(lookup_insert_ne _ "started_at") by congruence.
    reflexivity.
Qed.

(** ** The step-run updater *)

Section Updater.
Context {W : Type} (h : handler W).
Variables (step_run_id : Z) (update_data : pyval).

Local Abbreviation updater :=
  (update_dashboard_step_run_by_id step_run_id update_data).
Local Abbreviation patched :=
  (client_patch ("step-runs/" +:+ str_int step_run_id) update_data).

(** An exception from the PATCH, or from parsing its body, is the
    outcome. *)
Lemma updater_propagates w w' :
  (forall e, h _ patched w = (Err e, w') ->
             returned (run h updater w) = Err e)
  /\ (forall res e, h _ patched w = (Ok res, w') -> json res = Err e ->
                    returned (run h updater w) = Err e).
Proof.
  unfold run, update_dashboard_step_run_by_id. split.
  - intros e H1. now do 2 run_step.
  - intros res e H1 Hjson. do 3 run_step. now rewrite Hjson.
Qed.

(** C7.  The updater makes one PATCH to [step-runs/{step_run_id}] with the
    payload it was given, and returns the parsed body and the status code
    of the response as they are, whatever the status code. *)
Theorem updater_passes_through w w' res body :
  h _ patched w = (Ok res, w') ->
  json res = Ok body ->
  run h updater w =
  {| returned := Ok (body, status_code res);
     world := w';
     trace := [Logged "Updating step run ID %s" [PInt step_run_id];
               Called patched] |}.
Proof.
  intros H1 Hjson. unfold run, update_dashboard_step_run_by_id.
  do 3 run_step. now rewrite Hjson.
Qed.
End Updater.

(** ** The theorems at work *)

Lemma resolver_returns_the_id_witness :
  lookups_succeed a_dashboard 0%nat "Flyt" "Udsend brev" "0101701234"
    (found (PInt 5) 200) 4%nat
  /\ returned
       (run a_dashboard
          (get_step_run_id_for_process_step_cpr "Flyt" "Udsend brev"
             "0101701234") 0%nat)
     = Ok (PInt 5).
Proof.
  assert (Hchain : lookups_succeed a_dashboard 0%nat "Flyt" "Udsend brev"
                     "0101701234" (found (PInt 5) 200) 4%nat).
  { exists 7, 8, 9, 1%nat, 2%nat, 3%nat. repeat split. }
  split; [exact Hchain |].
  apply (resolver_returns_the_id a_dashboard "Flyt" "Udsend brev"
           "0101701234" 0%nat (found (PInt 5) 200) 4%nat
           {["id" := PInt 5]} (PInt 5) Hchain).
  - reflexivity.
  - reflexivity.
  - discriminate.
Defined.



Lemma resolver_lookup_order_witness :
  run a_dashboard_without_step
    (get_step_run_id_for_process_step_cpr "Flyt" "Udsend brev" "0101701234")
    0%nat
  = {| returned := Err (RuntimeError "Step not found");
       world := 2%nat;
       trace := [finding_logged "Flyt" "Udsend brev" "0101701234";
                 Called (get_dashboard_process_id "Flyt");
                 Called (get_dashboard_step_id 7 "Udsend brev")] |}
  /\ trace
       (run a_dashboard
          (get_step_run_id_for_process_step_cpr "Flyt" "Udsend brev"
             "0101701234") 0%nat)
     = [finding_logged "Flyt" "Udsend brev" "0101701234";
        Called (get_dashboard_process_id "Flyt");
        Called (get_dashboard_step_id 7 "Udsend brev");
        Called (get_dashboard_run_id 7 "0101701234");
        Called (client_get "step-runs/run/9/step/8?include_deleted=false")].
Proof.
  split.
  - apply (proj1 (proj2 (resolver_lookup_order a_dashboard_without_step
                           "Flyt" "Udsend brev" "0101701234" 0%nat)
                    7 1%nat eq_refl)).
    reflexivity.
  - apply (proj2 (proj2 (proj2 (proj2
             (resolver_lookup_order a_dashboard "Flyt" "Udsend brev"
                "0101701234" 0%nat)
             7 1%nat eq_refl) 8 2%nat eq_refl) 9 3%nat eq_refl)
             (found (PInt 5) 200) 4%nat eq_refl).
Defined.

(** C3 fails where the business error evaluates as false: it is dropped,
    the payload has no failure, so no [error_code] either. *)
Lemma silent_business_error_counterexample :
  exc_is_business silent_business_error = true
  /\ returned_field
       (run a_dashboard
          (build_step_run_update "failed" (Some silent_business_error)) 0%nat)
       "failure"
     = Some PNone
  /\ failure_field
       (run a_dashboard
          (build_step_run_update "failed" (Some silent_business_error)) 0%nat)
       "error_code"
     = None.
Proof. repeat split; vm_compute; reflexivity. Qed.

Lemma business_error_payload_witness :
  let o := run a_dashboard (build_step_run_update "failed" (Some X_boom)) 0%nat in
  let o' :=
    run a_dashboard (build_step_run_update "failed" (Some X_boom_raised)) 0%nat in
  (failure_field o "error_code" = Some (PStr "X")
   /\ failure_field o "message" = Some (PStr "boom")
   /\ failure_field o "details" = Some PNone)
  /\ (failure_field o' "error_code" = Some (PStr "X")
      /\ failure_field o' "message" = Some (PStr "boom")
      /\ failure_field o' "details"
         = Some (PStr "<traceback object at 0x7f3a5c1d2e80>")).
Proof.
  split.
  - exact (business_error_payload a_dashboard 0%nat 1%nat a_moment eq_refl
             "failed" X_boom eq_refl eq_refl).
  - exact (business_error_payload a_dashboard 0%nat 1%nat a_moment eq_refl
             "failed" X_boom_raised eq_refl eq_refl).
Defined.

(** C4 fails where the failure evaluates as false: it is dropped as well,
    and the payload has no failure instead of the fixed one. *)
Lemma silent_fault_counterexample :
  exc_is_business silent_fault = false
  /\ returned_field
       (run a_dashboard (build_step_run_update "failed" (Some silent_fault))
          0%nat)
       "failure"
     = Some PNone
  /\ failure_field
       (run a_dashboard (build_step_run_update "failed" (Some silent_fault))
          0%nat)
       "error_code"
     = None.
Proof. repeat split; vm_compute; reflexivity. Qed.

Lemma application_error_payload_witness :
  let o := run a_dashboard (build_step_run_update "failed" (Some key_error)) 0%nat in
  failure_field o "error_code" = Some (PStr "ApplicationException")
  /\ failure_field o "message" = Some (PStr "Processen er fejlet")
  /\ failure_field o "details" = Some (PStr application_details)
  /\ returned
       (run a_dashboard (build_step_run_update "failed" (Some timeout_error))
          0%nat)
     = returned o.
Proof.
  pose proof (application_error_payload a_dashboard 0%nat 1%nat a_moment
                eq_refl "failed" key_error eq_refl eq_refl)
    as (_ & Hcode & Hmessage & Hdetails & Hsame).
  exact (conj Hcode (conj Hmessage (conj Hdetails
           (Hsame timeout_error eq_refl eq_refl)))).
Defined.

Lemma success_payload_witness :
  let o := run a_dashboard (build_step_run_update "success" None) 0%nat in
  valid_datetime a_moment = true
  /\ returned_field o "status" = Some (PStr "success")
  /\ returned_field o "failure" = Some PNone
  /\ returned_field o "started_at" = Some (PStr "2024-03-07T09:05:01.042Z")
  /\ returned_field o "finished_at" = returned_field o "started_at"
  /\ trace o = [Called datetime_now_utc]
  /\ is_iso8601_ms_z "2024-03-07T09:05:01.042Z" = true
  /\ occurs "+00:00" "2024-03-07T09:05:01.042Z" = false.
Proof.
  split; [reflexivity |].
  exact (success_payload a_dashboard 0%nat 1%nat a_moment eq_refl eq_refl).
Defined.

Lemma payload_deterministic_witness :
  let o := run a_dashboard (build_step_run_update "failed" (Some X_boom)) 0%nat in
  let o' :=
    run a_later_dashboard (build_step_run_update "failed" (Some X_boom)) 5%nat in
  returned_field o "status" = returned_field o' "status"
  /\ returned_field o "failure" = returned_field o' "failure"
  /\ returned (run a_dashboard (build_step_run_update "failed" (Some X_boom))
                 5%nat)
     = returned o.
Proof.
  pose proof (payload_deterministic a_dashboard a_later_dashboard 0%nat 1%nat
                5%nat 6%nat a_moment a_later_moment "failed" (Some X_boom)
                eq_refl eq_refl) as (_ & Hagree & _).
  pose proof (payload_deterministic a_dashboard a_dashboard 5%nat 6%nat
                0%nat 1%nat a_moment a_moment "failed" (Some X_boom)
                eq_refl eq_refl) as (Hsame & _).
  exact (conj (Hagree "status" ltac:(discriminate) ltac:(discriminate))
           (conj (Hagree "failure" ltac:(discriminate) ltac:(discriminate))
              (Hsame eq_refl))).
Defined.

Lemma falsy_failure_is_dropped_witness :
  exc_truthy silent_business_error = false
  /\ returned_field
       (run a_dashboard
          (build_step_run_update "failed" (Some silent_business_error)) 0%nat)
       "failure"
     = Some PNone.
Proof.
  split; [reflexivity |].
  exact (falsy_failure_is_dropped a_dashboard 0%nat 1%nat a_moment eq_refl
           "failed" silent_business_error eq_refl).
Defined.

Lemma payload_keys_witness :
  exists d : gmap string pyval,
    returned
      (run a_dashboard (build_step_run_update "no such status" (Some key_error))
         0%nat)
    = Ok (PDict d)
    /\ dom d =
       ({["status"; "started_at"; "finished_at"; "failure"]} : gset string)
    /\ d !! "status" = Some (PStr "no such status").
Proof.
  exact (payload_keys a_dashboard 0%nat 1%nat a_moment eq_refl
           "no such status" (Some key_error)).
Defined.

Lemma updater_passes_through_witness :
  run a_broken_dashboard
    (update_dashboard_step_run_by_id 5 (PDict {["status" := PStr "failed"]}))
    0%nat
  = {| returned :=
         Ok (PDict {["detail" := PStr "Internal Server Error"]}, 500);
       world := 1%nat;
       trace := [Logged "Updating step run ID %s" [PInt 5];
                 Called (client_patch "step-runs/5"
                           (PDict {["status" := PStr "failed"]}))] |}.
Proof.
  exact (updater_passes_through a_broken_dashboard 5
           (PDict {["status" := PStr "failed"]}) 0%nat 1%nat
           (refused "Internal Server Error" 500)
           (PDict {["detail" := PStr "Internal Server Error"]})
           eq_refl eq_refl).
Defined.


(** ** Further properties of the resolver *)

Section ResolverEdges.
Context {W : Type} (h : handler W).
Variables process_name step_name cpr : string.

Local Abbreviation resolver :=
  (get_step_run_id_for_process_step_cpr process_name step_name cpr).

(** X1.  When the body of the GET response cannot be parsed, the exception
    of [res.json()] is the outcome of the resolver: it is not turned into
    the not-found error. *)
Theorem resolver_json_error w res w' e :
  lookups_succeed h w process_name step_name cpr res w' ->
  json res = Err e ->
  returned (run h resolver w) = Err e /\ world (run h resolver w) = w'.
Proof.
  intros (pid & sid & rid & w1 & w2 & w3 & H1 & H2 & H3 & H4) Hjson.
  unfold step_run_path in H4.
  unfold run, get_step_run_id_for_process_step_cpr.
  do 5 run_step. rewrite Hjson. run_step. now split.
Qed.

(** X2.  A body that parses to something other than a JSON object (a list,
    a string, a number, null) makes the resolver raise the
    [AttributeError] of the missing [get], naming the type of the body. *)
Theorem resolver_body_without_get w res w' body :
  lookups_succeed h w process_name step_name cpr res w' ->
  json res = Ok body ->
  (forall d, body <> PDict d) ->
  returned (run h resolver w) =
  Err (AttributeError
         ("'" +:+ py_type_name body +:+ "' object has no attribute 'get'"))
  /\ world (run h resolver w) = w'.
Proof.
  intros (pid & sid & rid & w1 & w2 & w3 & H1 & H2 & H3 & H4) Hjson Hbody.
  unfold step_run_path in H4.
  unfold run, get_step_run_id_for_process_step_cpr.
  do 5 run_step. rewrite Hjson. do 2 run_step.
  destruct body; try (now split). now destruct (Hbody d).
Qed.

(** X3.  Whatever the collaborators answer, the resolver logs once, calls
    the process lookup, and goes on at most through the step lookup, the
    run lookup and one GET, in this order: it never PATCHes, never reads
    the clock and never calls anything twice. *)
Theorem resolver_calls_only_lookups w :
  exists process_id step_id run_id,
    trace (run h resolver w)
      `prefix_of` lookup_calls process_name step_name cpr
                    process_id step_id run_id
    /\ (2 <= length (trace (run h resolver w)))%nat.
Proof.
  unfold run, get_step_run_id_for_process_step_cpr, lookup_calls,
    finding_logged, step_run_path.
  run_step.
  destruct (h _ (get_dashboard_process_id process_name) w)
    as [[pid | e] w1] eqn:H1; run_step;
    [| exists 0, 0, 0; split; [by eexists | cbn; lia]].
  destruct (h _ (get_dashboard_step_id pid step_name) w1)
    as [[sid | e] w2] eqn:H2; run_step;
    [| exists pid, 0, 0; split; [by eexists | cbn; lia]].
  destruct (h _ (get_dashboard_run_id pid cpr) w2)
    as [[rid | e] w3] eqn:H3; run_step;
    [| exists pid, sid, 0; split; [by eexists | cbn; lia]].
  exists pid, sid, rid.
  match goal with
  | |- context [client_get ?p] =>
      destruct (h _ (client_get p) w3) as [[res | e] w4] eqn:H4
  end; run_step; [| split; [by exists [] | cbn; lia]].
  run_step.
  destruct (json res) as [body | e]; cbn [returned world trace];
    [| split; [by exists [] | cbn; lia]].
  run_step.
  destruct (py_get body "id") as [i | e];
    [| split; [by exists [] | cbn; lia]].
  destruct i; (split; [by exists [] | cbn; lia]).
Qed.

(** X4.  A value the resolver returns is always the [id] entry of the JSON
    object that the GET answered with, after all three lookups
    succeeded. *)
Theorem resolver_result_comes_from_body w v :
  returned (run h resolver w) = Ok v ->
  exists res w' d,
    lookups_succeed h w process_name step_name cpr res w'
    /\ json res = Ok (PDict d)
    /\ d !! "id" = Some v
    /\ v <> PNone
    /\ world (run h resolver w) = w'.
Proof.
  unfold run, get_step_run_id_for_process_step_cpr, lookups_succeed,
    step_run_path.
  run_step.
  destruct (h _ (get_dashboard_process_id process_name) w)
    as [[pid | e] w1] eqn:H1; run_step; [| discriminate].
  destruct (h _ (get_dashboard_step_id pid step_name) w1)
    as [[sid | e] w2] eqn:H2; run_step; [| discriminate].
  destruct (h _ (get_dashboard_run_id pid cpr) w2)
    as [[rid | e] w3] eqn:H3; run_step; [| discriminate].
  match goal with
  | |- context [client_get ?p] =>
      destruct (h _ (client_get p) w3) as [[res | e] w4] eqn:H4
  end; run_step; [| discriminate].
  run_step. destruct (json res) as [body | e] eqn:Hjson; [| discriminate].
  run_step. cbn [returned world trace].
  destruct body as [| | | | | | d]; try discriminate. cbn [py_get].
  destruct (d !! "id") as [i |] eqn:Hid; cbn [default]; [| discriminate].
  intros Hv. exists res, w4, d.
  assert (i = v /\ v <> PNone) as [-> Hne]
    by (destruct i; cbn in Hv; inversion Hv; split; congruence).
  split; [by exists pid, sid, rid, w1, w2, w3 |].
  repeat split; try done. by destruct v.
Qed.
End ResolverEdges.

(** ** Further properties of the builder *)

Lemma length_iso8601_ms_z dt :
  valid_datetime dt = true -> String.length (iso8601_ms_z dt) = 24%nat.
Proof.
  unfold valid_datetime. rewrite !andb_true_iff.
  intros [[[[[[[[[_ Hy] _] Hm] _] Hd] Hh] Hmi] Hs] Hus].
  apply N.leb_le in Hy, Hm, Hd. apply N.ltb_lt in Hh, Hmi, Hs, Hus.
  assert (Hms : (microsecond dt / 1000 < 1000)%N)
    by (apply N.Div0.div_lt_upper_bound; lia).
  unfold iso8601_ms_z. rewrite !length_append.
  rewrite (length_zero_padded 10000 4 _ short_below_10000) by lia.
  rewrite !(length_zero_padded 100 2 _ short_below_100) by lia.
  rewrite (length_zero_padded 1000 3 _ short_below_1000) by lia.
  reflexivity.
Qed.

Section PayloadInvariants.
Context {W : Type} (h : handler W).
Variables (w w' : W) (dt : datetime).
Hypothesis clock : h _ datetime_now_utc w = (Ok dt, w').

(** X5.  For every status and every failure the builder returns, reads the
    clock once and calls nothing else, and puts one and the same string
    under [started_at] and [finished_at]: 24 characters of the shape
    [YYYY-MM-DDTHH:MM:SS.mmmZ]. *)
Theorem payload_timestamps status failure :
  valid_datetime dt = true ->
  let o := run h (build_step_run_update status failure) w in
  exists t,
    returned_field o "started_at" = Some (PStr t)
    /\ returned_field o "finished_at" = Some (PStr t)
    /\ is_iso8601_ms_z t = true
    /\ String.length t = 24%nat
    /\ trace o = [Called datetime_now_utc]
    /\ world o = w'.
Proof.
  intros Hvalid o. subst o. exists (iso8601_ms_z dt). read_payload clock.
  split; [by simplify_map_eq |]. split; [by simplify_map_eq |].
  split; [by apply iso8601_ms_z_shape |].
  split; [by apply length_iso8601_ms_z |].
  done.
Qed.

(** X6.  The [failure] of the payload is null exactly when no failure was
    given or the one given evaluates as false; otherwise it is a record
    with the three keys [error_code], [message] and [details] and no
    other, whose [error_code] and [message] are strings and whose
    [details] is a string or null. *)
Theorem payload_failure_schema status failure :
  let o := run h (build_step_run_update status failure) w in
  (returned_field o "failure" = Some PNone
   <-> failure = None \/ exists e, failure = Some e /\ exc_truthy e = false)
  /\ (returned_field o "failure" = Some PNone
      \/ exists (f : gmap string pyval) code message,
          returned_field o "failure" = Some (PDict f)
          /\ dom f = ({["error_code"; "message"; "details"]} : gset string)
          /\ f !! "error_code" = Some (PStr code)
          /\ f !! "message" = Some (PStr message)
          /\ (f !! "details" = Some PNone
              \/ exists details, f !! "details" = Some (PStr details))).
Proof.
  intros o. subst o. read_payload clock. rewrite !lookup_insert_eq.
  destruct failure as [e |]; cbn [failure_data].
  - destruct (exc_truthy e) eqn:Ht.
    + destruct (exc_is_business e) eqn:Hb.
      * split.
        { split; [discriminate |].
          intros [E | (e' & E & Hf)]; [discriminate |].
          inversion E; subst e'. congruence. }
        right. exists (business_failure e), (exc_type_name e), (exc_str e).
        unfold business_failure. split; [done |].
        split; [rewrite !dom_insert_L; set_solver |].
        split; [by simplify_map_eq |]. split; [by simplify_map_eq |].
        rewrite lookup_insert_eq.
        destruct (exc_traceback e) as [tb |]; [right; by eexists | by left].
      * split.
        { split; [discriminate |].
          intros [E | (e' & E & Hf)]; [discriminate |].
          inversion E; subst e'. congruence. }
        right.
        exists application_failure, "ApplicationException",
          "Processen er fejlet".
        unfold application_failure. split; [done |].
        split; [rewrite !dom_insert_L; set_solver |].
        split; [by simplify_map_eq |]. split; [by simplify_map_eq |].
        right. rewrite lookup_insert_eq. by eexists.
    + split; [| by left]. split; [| done]. intros _. right. by exists e.
  - split; [| by left]. split; [| done]. intros _. by left.
Qed.
End PayloadInvariants.

(** ** The order of timestamps *)

Lemma valid_datetime_bounds dt :
  valid_datetime dt = true ->
  (year dt < 10000 /\ month dt < 100 /\ day dt < 100 /\ hour dt < 100
   /\ minute dt < 100 /\ second dt < 100
   /\ microsecond dt / 1000 < 1000)%N.
Proof.
  unfold valid_datetime. rewrite !andb_true_iff.
  intros [[[[[[[[[_ Hy] _] Hm] _] Hd] Hh] Hmi] Hs] Hus].
  apply N.leb_le in Hy, Hm, Hd. apply N.ltb_lt in Hh, Hmi, Hs, Hus.
  assert (microsecond dt / 1000 < 1000)%N
    by (apply N.Div0.div_lt_upper_bound; lia).
  lia.
Qed.

Lemma is_digit_value c :
  is_digit c = true -> (N_of_ascii c = digit_value c + 48 /\ digit_value c <= 9)%N.
Proof.
  destruct c as [[|] [|] [|] [|] [|] [|] [|] [|]]; cbn; try discriminate;
    intros _; split; vm_compute; congruence.
Qed.

Lemma pow10_succ (k : nat) : (10 ^ N.of_nat (S k) = 10 * 10 ^ N.of_nat k)%N.
Proof. now rewrite Nat2N.inj_succ, N.pow_succ_r'. Qed.

Lemma digits_value_bound s :
  all_digits s = true -> (digits_value s < 10 ^ N.of_nat (String.length s))%N.
Proof.
  induction s as [| c s IH]; [intros _; cbn; lia |].
  cbn [all_digits]. intros [Hc Hs]%andb_true_iff.
  destruct (is_digit_value c Hc) as [_ Hle]. specialize (IH Hs).
  cbn [digits_value String.length]. rewrite pow10_succ. nia.
Qed.

Lemma compare_cons c d s t :
  String.compare (String c s) (String d t) =
  lexico (N_of_ascii c ?= N_of_ascii d)%N (String.compare s t).
Proof.
  cbn [String.compare]. unfold Ascii.compare.
  now destruct (N_of_ascii c ?= N_of_ascii d)%N.
Qed.

(** Strings of digits of one length are ordered as their numbers. *)
Lemma compare_digits s t :
  all_digits s = true -> all_digits t = true ->
  String.length s = String.length t ->
  String.compare s t = (digits_value s ?= digits_value t)%N.
Proof.
  revert t. induction s as [| c s IH]; intros [| d t]; try discriminate.
  - reflexivity.
  - cbn [all_digits String.length].
    intros [Hc Hs]%andb_true_iff [Hd Ht]%andb_true_iff [= Hlen].
    rewrite compare_cons, (IH t Hs Ht Hlen).
    destruct (is_digit_value c Hc) as [-> Hc9].
    destruct (is_digit_value d Hd) as [-> Hd9].
    pose proof (digits_value_bound s Hs) as Bs.
    pose proof (digits_value_bound t Ht) as Bt.
    cbn [digits_value]. rewrite <- Hlen in *.
    set (k := (10 ^ N.of_nat (String.length s))%N) in *.
    destruct (N.compare_spec (digit_value c + 48) (digit_value d + 48))
      as [E | L | G]; cbn [lexico].
    + assert (digit_value c = digit_value d) as -> by lia.
      destruct (N.compare_spec (digits_value s) (digits_value t));
        symmetry; [apply N.compare_eq_iff | apply N.compare_lt_iff
                  | apply N.compare_gt_iff]; nia.
    + symmetry. apply N.compare_lt_iff. nia.
    + symmetry. apply N.compare_gt_iff. nia.
Qed.

Lemma compare_append s t r r' :
  String.length s = String.length t ->
  String.compare (s +:+ r) (t +:+ r') =
  lexico (String.compare s t) (String.compare r r').
Proof.
  revert t. induction s as [| c s IH]; intros [| d t]; try discriminate.
  - reflexivity.
  - intros [= Hlen]. rewrite !append_cons, !compare_cons, (IH t Hlen).
    now destruct (N_of_ascii c ?= N_of_ascii d)%N.
Qed.

Lemma compare_same_head c r r' :
  String.compare (String c "" +:+ r) (String c "" +:+ r') = String.compare r r'.
Proof.
  rewrite !append_cons, !append_nil, compare_cons.
  now rewrite N.compare_refl.
Qed.

Lemma reads_back_below_100 : reads_back_below 100 2 = true.
Proof. vm_compute. reflexivity. Qed.

Lemma reads_back_below_1000 : reads_back_below 1000 3 = true.
Proof. vm_compute. reflexivity. Qed.

Lemma reads_back_below_10000 : reads_back_below 10000 4 = true.
Proof. vm_compute. reflexivity. Qed.

Lemma digits_value_zero_padded bound width n :
  reads_back_below bound width = true ->
  (n < bound)%N ->
  digits_value (zero_padded width n) = n.
Proof.
  unfold reads_back_below. intros Hall Hn.
  rewrite forallb_forall in Hall.
  specialize (Hall (N.to_nat n)). rewrite N2Nat.id in Hall.
  apply N.eqb_eq, Hall, in_seq. lia.
Qed.

(** Numbers padded to one width are ordered as strings the way they are as
    numbers. *)
Lemma compare_zero_padded bound width n m r r' :
  short_below bound width = true ->
  reads_back_below bound width = true ->
  (n < bound)%N -> (m < bound)%N ->
  String.compare (zero_padded width n +:+ r) (zero_padded width m +:+ r') =
  lexico (n ?= m)%N (String.compare r r').
Proof.
  intros Hshort Hback Hn Hm.
  rewrite compare_append
    by now rewrite !(length_zero_padded bound width _ Hshort).
  rewrite compare_digits;
    [| apply all_digits_zero_padded | apply all_digits_zero_padded
     | now rewrite !(length_zero_padded bound width _ Hshort)].
  now rewrite !(digits_value_zero_padded bound width _ Hback).
Qed.

(** The timestamps of two instants are ordered as strings the way the
    instants are in time, down to the millisecond. *)
Lemma compare_iso8601_ms_z dt1 dt2 :
  valid_datetime dt1 = true -> valid_datetime dt2 = true ->
  String.compare (iso8601_ms_z dt1) (iso8601_ms_z dt2) =
  compare_to_millisecond dt1 dt2.
Proof.
  intros (Hy1 & Hm1 & Hd1 & Hh1 & Hmi1 & Hs1 & Hms1)%valid_datetime_bounds
         (Hy2 & Hm2 & Hd2 & Hh2 & Hmi2 & Hs2 & Hms2)%valid_datetime_bounds.
  unfold iso8601_ms_z, compare_to_millisecond.
  rewrite (compare_zero_padded 10000 4 _ _ _ _
             short_below_10000 reads_back_below_10000 Hy1 Hy2).
  rewrite compare_same_head.
  rewrite (compare_zero_padded 100 2 _ _ _ _
             short_below_100 reads_back_below_100 Hm1 Hm2).
  rewrite compare_same_head.
  rewrite (compare_zero_padded 100 2 _ _ _ _
             short_below_100 reads_back_below_100 Hd1 Hd2).
  rewrite compare_same_head.
  rewrite (compare_zero_padded 100 2 _ _ _ _
             short_below_100 reads_back_below_100 Hh1 Hh2).
  rewrite compare_same_head.
  rewrite (compare_zero_padded 100 2 _ _ _ _
             short_below_100 reads_back_below_100 Hmi1 Hmi2).
  rewrite compare_same_head.
  rewrite (compare_zero_padded 100 2 _ _ _ _
             short_below_100 reads_back_below_100 Hs1 Hs2).
  rewrite compare_same_head.
  rewrite (compare_zero_padded 1000 3 _ _ _ _
             short_below_1000 reads_back_below_1000 Hms1 Hms2).
  cbn [String.compare].
  now destruct (microsecond dt1 / 1000 ?= microsecond dt2 / 1000)%N.
Qed.

Lemma compare_same (s : string) : String.compare s s = Eq.
Proof.
  induction s as [| c s IH]; [reflexivity |].
  now rewrite compare_cons, N.compare_refl.
Qed.

Lemma lexico_Eq c c' : lexico c c' = Eq <-> c = Eq /\ c' = Eq.
Proof. destruct c; cbn; intuition congruence. Qed.

(** X7.  Two payloads carry the same timestamp exactly when their instants
    agree in everything down to the millisecond: what is below the
    millisecond is cut off, and nothing else is lost. *)
Theorem timestamps_equal_iff_same_millisecond {W1 W2 : Type}
    (h1 : handler W1) (h2 : handler W2) w1 w1' w2 w2' dt1 dt2
    status1 failure1 status2 failure2 :
  h1 _ datetime_now_utc w1 = (Ok dt1, w1') ->
  h2 _ datetime_now_utc w2 = (Ok dt2, w2') ->
  valid_datetime dt1 = true ->
  valid_datetime dt2 = true ->
  let o1 := run h1 (build_step_run_update status1 failure1) w1 in
  let o2 := run h2 (build_step_run_update status2 failure2) w2 in
  returned_field o1 "started_at" = returned_field o2 "started_at"
  <-> (year dt1 = year dt2 /\ month dt1 = month dt2 /\ day dt1 = day dt2
       /\ hour dt1 = hour dt2 /\ minute dt1 = minute dt2
       /\ second dt1 = second dt2
       /\ microsecond dt1 / 1000 = microsecond dt2 / 1000)%N.
Proof.
  intros H1 H2 V1 V2 o1 o2. subst o1 o2. unfold returned_field.
  rewrite (run_builder h1 _ _ _ _ _ H1), (run_builder h2 _ _ _ _ _ H2).
  cbn [returned field].
  rewrite !(lookup_insert_ne _ "failure"), !(lookup_insert_ne _ "finished_at"),
    !lookup_insert_eq by done.
  transitivity (String.compare (iso8601_ms_z dt1) (iso8601_ms_z dt2) = Eq).
  - split; [intros [= ->]; apply compare_same |].
    intros E. apply String.compare_eq_iff in E. now rewrite E.
  - rewrite (compare_iso8601_ms_z dt1 dt2 V1 V2). unfold compare_to_millisecond.
    rewrite !lexico_Eq, !N.compare_eq_iff. tauto.
Qed.

(** X8.  The timestamps of two payloads compare as strings the way their
    instants compare in time, down to the millisecond: sorting payloads by
    [started_at] sorts them by time. *)
Theorem timestamps_sort_by_time {W1 W2 : Type}
    (h1 : handler W1) (h2 : handler W2) w1 w1' w2 w2' dt1 dt2
    status1 failure1 status2 failure2 :
  h1 _ datetime_now_utc w1 = (Ok dt1, w1') ->
  h2 _ datetime_now_utc w2 = (Ok dt2, w2') ->
  valid_datetime dt1 = true ->
  valid_datetime dt2 = true ->
  let o1 := run h1 (build_step_run_update status1 failure1) w1 in
  let o2 := run h2 (build_step_run_update status2 failure2) w2 in
  exists t1 t2,
    returned_field o1 "started_at" = Some (PStr t1)
    /\ returned_field o2 "started_at" = Some (PStr t2)
    /\ String.compare t1 t2 = compare_to_millisecond dt1 dt2.
Proof.
  intros H1 H2 V1 V2 o1 o2. subst o1 o2. unfold returned_field.
  rewrite (run_builder h1 _ _ _ _ _ H1), (run_builder h2 _ _ _ _ _ H2).
  cbn [returned field].
  exists (iso8601_ms_z dt1), (iso8601_ms_z dt2).
  split; [by simplify_map_eq |]. split; [by simplify_map_eq |].
  now apply compare_iso8601_ms_z.
Qed.

(** ** Further properties of the updater *)

(** X9.  Whatever the PATCH does, the updater logs once and PATCHes once and
    does nothing else: an exception from the PATCH, or from parsing the
    body of its response, is the outcome, and nothing is tried again. *)
Theorem updater_patches_once {W : Type} (h : handler W) step_run_id
    update_data w :
  let patched :=
    client_patch ("step-runs/" +:+ str_int step_run_id) update_data in
  let o := run h (update_dashboard_step_run_by_id step_run_id update_data) w in
  trace o = [Logged "Updating step run ID %s" [PInt step_run_id];
             Called patched]
  /\ world o = (h _ patched w).2
  /\ (forall e, (h _ patched w).1 = Err e -> returned o = Err e)
  /\ (forall res e,
        (h _ patched w).1 = Ok res -> json res = Err e -> returned o = Err e).
Proof.
  intros patched o. subst patched o.
  unfold run, update_dashboard_step_run_by_id. run_step.
  destruct (h _ (client_patch ("step-runs/" +:+ str_int step_run_id)
                   update_data) w) as [[res | e] w'] eqn:H1; run_step.
  - run_step. destruct (json res) as [body | e] eqn:Hjson;
      cbn [returned world trace fst snd].
    + repeat split; [discriminate | intros res' e [= <-]; congruence].
    + repeat split; [discriminate | intros res' e' [= <-]; congruence].
  - cbn [fst snd]. repeat split; [congruence | discriminate].
Qed.

(** ** Paths *)

Lemma append_inv_head (s x y : string) : s +:+ x = s +:+ y -> x = y.
Proof.
  induction s as [| c s IH]; [trivial |].
  rewrite !append_cons. intros [= E]. auto.
Qed.

(** Two strings that stop at the first [c] are the same up to it and after
    it. *)
Lemma append_inv_at c (s t r r' : string) :
  without c s = true -> without c t = true ->
  s +:+ String c r = t +:+ String c r' -> s = t /\ r = r'.
Proof.
  revert t. induction s as [| a s IH]; intros [| b t]; cbn [without];
    rewrite ?append_cons, ?append_nil.
  - intros _ _ [= E]. auto.
  - intros _ [Hb _]%andb_true_iff [= E _]. subst b.
    now rewrite Ascii.eqb_refl in Hb.
  - intros [Ha _]%andb_true_iff _ [= E _]. subst a.
    now rewrite Ascii.eqb_refl in Ha.
  - intros [_ Hs]%andb_true_iff [_ Ht]%andb_true_iff [= -> E].
    destruct (IH t Hs Ht E) as [-> ->]. auto.
Qed.

Lemma str_int_inj a b : str_int a = str_int b -> a = b.
Proof.
  unfold str_int. intros E.
  assert (Hnil : forall z, Z.to_int z <> Decimal.Pos Decimal.Nil
                           /\ Z.to_int z <> Decimal.Neg Decimal.Nil).
  { intros [| p | p]; cbn; split; try discriminate;
      intros [= Hp]; now apply DecimalPos.Unsigned.to_uint_nonnil in Hp. }
  apply (f_equal NilZero.int_of_string) in E.
  destruct (Hnil a) as [Ha Ha'], (Hnil b) as [Hb Hb'].
  rewrite !NilZero.isi in E by assumption.
  injection E as E. apply (f_equal Z.of_int) in E.
  now rewrite !DecimalZ.of_to in E.
Qed.

Lemma without_string_of_uint c d :
  is_digit c = false -> without c (NilEmpty.string_of_uint d) = true.
Proof.
  intros Hc.
  induction d; cbn [NilEmpty.string_of_uint without]; [reflexivity | ..];
    rewrite IHd, andb_true_r; apply negb_true_iff, Ascii.eqb_neq;
    intros ->; discriminate.
Qed.

Lemma without_str_int c z :
  is_digit c = false -> c <> "-"%char -> without c (str_int z) = true.
Proof.
  intros Hc Hminus. unfold str_int.
  assert (Hu : forall d, without c (NilZero.string_of_uint d) = true).
  { intros d. destruct d; try apply (without_string_of_uint c _ Hc).
    cbn. rewrite andb_true_r. apply negb_true_iff, Ascii.eqb_neq.
    intros ->; discriminate. }
  destruct (Z.to_int z) as [d | d]; cbn [NilZero.string_of_int without].
  - apply Hu.
  - rewrite Hu, andb_true_r. now apply negb_true_iff, Ascii.eqb_neq.
Qed.

(** X10.  The path of the GET names its run and its step, and the path of
    the PATCH its step run: paths made from different ids are different
    paths. *)
Theorem paths_identify_their_ids :
  (forall run_id step_id run_id' step_id',
      step_run_path run_id step_id = step_run_path run_id' step_id' ->
      run_id = run_id' /\ step_id = step_id')
  /\ (forall step_run_id step_run_id',
        "step-runs/" +:+ str_int step_run_id
        = "step-runs/" +:+ str_int step_run_id' ->
        step_run_id = step_run_id').
Proof.
  split.
  - intros r s r' s' E. unfold step_run_path in E.
    apply append_inv_head in E.
    change ("/step/" +:+ ?x) with (String "/" ("step/" +:+ x)) in E.
    apply append_inv_at in E as [Er E];
      [| now apply without_str_int | now apply without_str_int].
    apply append_inv_head in E.
    change "?include_deleted=false"
      with (String "?" "include_deleted=false") in E.
    apply append_inv_at in E as [Es _];
      [| now apply without_str_int | now apply without_str_int].
    split; now apply str_int_inj.
  - intros a b E. now apply append_inv_head, str_int_inj in E.
Qed.

(** ** What the resolver does not look at *)

(** X11.  The resolver never looks at the status code of the GET response:
    two runs whose lookups succeed and whose responses parse alike end
    alike, whatever the status codes and whatever was looked up. *)
Theorem resolver_ignores_status_code {W1 W2 : Type} (h1 : handler W1)
    (h2 : handler W2) w1 w1' w2 w2' res1 res2
    process_name1 step_name1 cpr1 process_name2 step_name2 cpr2 :
  lookups_succeed h1 w1 process_name1 step_name1 cpr1 res1 w1' ->
  lookups_succeed h2 w2 process_name2 step_name2 cpr2 res2 w2' ->
  json res1 = json res2 ->
  returned
    (run h1 (get_step_run_id_for_process_step_cpr process_name1 step_name1
               cpr1) w1)
  = returned
      (run h2 (get_step_run_id_for_process_step_cpr process_name2 step_name2
                 cpr2) w2).
Proof.
  intros (pid & sid & rid & u1 & u2 & u3 & H1 & H2 & H3 & H4)
         (pid' & sid' & rid' & v1 & v2 & v3 & K1 & K2 & K3 & K4) Hjson.
  unfold step_run_path in H4, K4.
  unfold run, get_step_run_id_for_process_step_cpr.
  do 5 run_step. run_step.
  do 5 run_step. run_step.
  rewrite Hjson.
  destruct (json res2) as [body | e]; cbn [returned world trace];
    [| reflexivity].
  do 2 run_step.
  destruct (py_get body "id") as [i | e]; cbn [returned]; [| reflexivity].
  now destruct i.
Qed.

(** ** The further properties at work *)

Lemma resolver_json_error_witness :
  lookups_succeed a_dashboard_answering_html 0%nat "Flyt" "Udsend brev"
    "0101701234" (unparsable 502) 4%nat
  /\ returned
       (run a_dashboard_answering_html
          (get_step_run_id_for_process_step_cpr "Flyt" "Udsend brev"
             "0101701234") 0%nat)
     = Err (Raised json_decode_error).
Proof.
  assert (Hchain : lookups_succeed a_dashboard_answering_html 0%nat "Flyt"
                     "Udsend brev" "0101701234" (unparsable 502) 4%nat).
  { exists 7, 8, 9, 1%nat, 2%nat, 3%nat. repeat split. }
  split; [exact Hchain |].
  exact (proj1 (resolver_json_error a_dashboard_answering_html "Flyt"
                  "Udsend brev" "0101701234" 0%nat (unparsable 502) 4%nat
                  (Raised json_decode_error) Hchain eq_refl)).
Defined.

Lemma resolver_body_without_get_witness :
  returned
    (run a_dashboard_answering_a_list
       (get_step_run_id_for_process_step_cpr "Flyt" "Udsend brev"
          "0101701234") 0%nat)
  = Err (AttributeError "'list' object has no attribute 'get'").
Proof.
  assert (Hchain : lookups_succeed a_dashboard_answering_a_list 0%nat "Flyt"
                     "Udsend brev" "0101701234"
                     {| json := Ok (PList []); status_code := 200 |} 4%nat).
  { exists 7, 8, 9, 1%nat, 2%nat, 3%nat. repeat split. }
  refine (proj1 (resolver_body_without_get a_dashboard_answering_a_list
                   "Flyt" "Udsend brev" "0101701234" 0%nat _ 4%nat
                   (PList []) Hchain eq_refl _)).
  intros d. discriminate.
Defined.

Lemma resolver_result_comes_from_body_witness :
  exists res w' d,
    lookups_succeed a_dashboard 0%nat "Flyt" "Udsend brev" "0101701234" res w'
    /\ json res = Ok (PDict d)
    /\ d !! "id" = Some (PInt 5)
    /\ PInt 5 <> PNone
    /\ world
         (run a_dashboard
            (get_step_run_id_for_process_step_cpr "Flyt" "Udsend brev"
               "0101701234") 0%nat)
       = w'.
Proof.
  exact (resolver_result_comes_from_body a_dashboard "Flyt" "Udsend brev"
           "0101701234" 0%nat (PInt 5) eq_refl).
Defined.

Lemma payload_timestamps_witness :
  let o :=
    run a_dashboard (build_step_run_update "failed" (Some key_error)) 0%nat in
  valid_datetime a_moment = true
  /\ exists t,
      returned_field o "started_at" = Some (PStr t)
      /\ returned_field o "finished_at" = Some (PStr t)
      /\ is_iso8601_ms_z t = true
      /\ String.length t = 24%nat
      /\ trace o = [Called datetime_now_utc]
      /\ world o = 1%nat.
Proof.
  split; [reflexivity |].
  exact (payload_timestamps a_dashboard 0%nat 1%nat a_moment eq_refl
           "failed" (Some key_error) eq_refl).
Defined.

Lemma payload_failure_schema_witness :
  returned_field
    (run a_dashboard (build_step_run_update "failed" (Some silent_fault))
       0%nat) "failure"
  = Some PNone
  /\ (returned_field
        (run a_dashboard (build_step_run_update "failed" (Some key_error))
           0%nat) "failure"
      = Some PNone
      -> False).
Proof.
  split.
  - apply (proj1 (payload_failure_schema a_dashboard 0%nat 1%nat a_moment
                    eq_refl "failed" (Some silent_fault))).
    right. exists silent_fault. split; reflexivity.
  - intros E.
    apply (proj1 (payload_failure_schema a_dashboard 0%nat 1%nat a_moment
                    eq_refl "failed" (Some key_error))) in E.
    destruct E as [E | (e & [= <-] & E)]; discriminate.
Defined.

Lemma timestamps_equal_iff_same_millisecond_witness :
  valid_datetime a_moment = true
  /\ valid_datetime a_moment_later = true
  /\ returned_field
       (run a_dashboard (build_step_run_update "success" None) 0%nat)
       "started_at"
     = returned_field
         (run a_dashboard_a_moment_later
            (build_step_run_update "failed" (Some X_boom)) 3%nat)
         "started_at".
Proof.
  split; [reflexivity |]. split; [reflexivity |].
  apply (proj2 (timestamps_equal_iff_same_millisecond a_dashboard
                  a_dashboard_a_moment_later 0%nat 1%nat 3%nat 4%nat
                  a_moment a_moment_later "success" None "failed"
                  (Some X_boom) eq_refl eq_refl eq_refl eq_refl)).
  repeat split.
Defined.

Lemma timestamps_sort_by_time_witness :
  exists t1 t2,
    returned_field
      (run a_dashboard (build_step_run_update "success" None) 0%nat)
      "started_at" = Some (PStr t1)
    /\ returned_field
         (run a_later_dashboard (build_step_run_update "success" None) 0%nat)
         "started_at" = Some (PStr t2)
    /\ String.compare t1 t2 = Lt.
Proof.
  exact (timestamps_sort_by_time a_dashboard a_later_dashboard 0%nat 1%nat
           0%nat 1%nat a_moment a_later_moment "success" None "success" None
           eq_refl eq_refl eq_refl eq_refl).
Defined.

Lemma updater_patches_once_witness :
  run a_dashboard_down
    (update_dashboard_step_run_by_id 5 (PDict {["status" := PStr "failed"]}))
    0%nat
  = {| returned := Err (Raised connection_error);
       world := 1%nat;
       trace := [Logged "Updating step run ID %s" [PInt 5];
                 Called (client_patch "step-runs/5"
                           (PDict {["status" := PStr "failed"]}))] |}.
Proof.
  pose proof (updater_patches_once a_dashboard_down 5
                (PDict {["status" := PStr "failed"]}) 0%nat)
    as (Htrace & Hworld & Hraise & _).
  specialize (Hraise (Raised connection_error) eq_refl).
  destruct (run a_dashboard_down
              (update_dashboard_step_run_by_id 5
                 (PDict {["status" := PStr "failed"]})) 0%nat)
    as [r w tr].
  cbn [returned world trace] in *. now subst.
Defined.

Lemma paths_identify_their_ids_witness :
  String.eqb (step_run_path 1 23) (step_run_path 12 3) = false
  /\ String.eqb ("step-runs/" +:+ str_int 7) ("step-runs/" +:+ str_int (-7))
     = false.
Proof.
  split.
  - destruct (String.eqb (step_run_path 1 23) (step_run_path 12 3)) eqn:E;
      [| reflexivity].
    apply String.eqb_eq, (proj1 paths_identify_their_ids) in E.
    destruct E; discriminate.
  - destruct (String.eqb ("step-runs/" +:+ str_int 7)
                ("step-runs/" +:+ str_int (-7))) eqn:E; [| reflexivity].
    apply String.eqb_eq, (proj2 paths_identify_their_ids) in E.
    discriminate.
Defined.

Lemma resolver_ignores_status_code_witness :
  returned
    (run a_dashboard
       (get_step_run_id_for_process_step_cpr "Flyt" "Udsend brev"
          "0101701234") 0%nat)
  = returned
      (run a_dashboard_answering_404_with_id
         (get_step_run_id_for_process_step_cpr "Skat" "Arkiver" "0202805678")
         0%nat).
Proof.
  refine (resolver_ignores_status_code a_dashboard
            a_dashboard_answering_404_with_id 0%nat 4%nat 0%nat 4%nat
            (found (PInt 5) 200) (found (PInt 5) 404)
            "Flyt" "Udsend brev" "0101701234" "Skat" "Arkiver" "0202805678"
            _ _ eq_refl).
  - exists 7, 8, 9, 1%nat, 2%nat, 3%nat. repeat split.
  - exists 1, 2, 3, 1%nat, 2%nat, 3%nat. repeat split.
Defined.
